(** * The fallback-confusion flaw of [VULNERABLE_CODE_EXAMPLE.cc]

    A shallow embedding of the browser-side IPC handler [GetResource], of the
    renderer-side driver [SimulateCompromisedRenderer] and of [main], followed
    by the properties of the resource-arbitration decision they implement.
    The corrected mode of the decision, which the source does not contain, is
    modelled from the specification and compared with the handler.

    Conventions of the embedding:
    - [enum class ResourceType] has the underlying type [int]; a value of the
      enumeration is an integer, the two enumerators being 0 and 1, and every
      other representable integer is a value outside the enumerators;
    - [std::unique_ptr<T>] is a nullable owner: [option T];
    - [std::cout] is the sequence of operands streamed into it so far;
    - a computation threads the stream and may fault (dereferencing a null
      pointer): a state monad over [option];
    - allocation and the stream itself do not fail. *)

From Stdlib Require Import ZArith List String Ascii Bool Lia.
Import ListNotations.

Local Open Scope Z_scope.
Local Open Scope string_scope.

(** ** Data model *)

(** [enum class ResourceType { kSafe, kPrivileged };] *)
Definition ResourceType : Type := Z.

Definition kSafe : ResourceType := 0.
Definition kPrivileged : ResourceType := 1.

(** The range of the underlying type [int] (32 bits, two's complement). *)
Definition int_min : Z := - 2 ^ 31.
Definition int_max : Z := 2 ^ 31 - 1.

Definition representable (v : ResourceType) : Prop :=
  int_min <= v <= int_max.

(** The cast [(ResourceType)n] of an integer: the value is kept, reduced to
    the underlying type. *)
Definition ResourceType_of_int (n : Z) : ResourceType :=
  (n + 2 ^ 31) mod 2 ^ 32 - 2 ^ 31.

(** [class ResourceHandle { ResourceType type; std::string name; ... }],
    the constructor [ResourceHandle(t, n) : type(t), name(n)] being
    [Build_ResourceHandle]. *)
Record ResourceHandle : Type := Build_ResourceHandle {
  type : ResourceType;
  name : string
}.

(** [std::unique_ptr<T>] and [std::make_unique<T>]. *)
Definition unique_ptr (T : Type) : Type := option T.

Definition make_unique {T : Type} (v : T) : unique_ptr T := Some v.

(** The two processes of the source's header comment: the handler runs in the
    privileged browser process and answers a sandboxed renderer process. *)
Inductive Process : Type :=
| Browser
| Renderer.

(** The boundary stated on [kPrivileged] in the enumeration ("the renderer
    should NEVER be able to request this directly"): a privileged handle is
    only ever held by the browser process. *)
Definition respects_boundary (receiver : Process) (h : ResourceHandle) : Prop :=
  type h = kPrivileged -> receiver = Browser.

(** ** Effects: the output stream and faults *)

Definition ostream : Type := list string.

Definition M (A : Type) : Type := ostream -> option (A * ostream).

Definition ret {A : Type} (a : A) : M A :=
  fun out => Some (a, out).

Definition bind {A B : Type} (m : M A) (k : A -> M B) : M B :=
  fun out =>
    match m out with
    | Some (a, out') => k a out'
    | None => None
    end.

Definition fault {A : Type} : M A :=
  fun _ => None.

Declare Scope io_scope.
Delimit Scope io_scope with io.

Notation "x <- m ;; k" := (bind m (fun x => k))
  (at level 61, m at next level, right associativity) : io_scope.
Notation "m ;; k" := (bind m (fun _ => k))
  (at level 61, right associativity) : io_scope.

Local Open Scope io_scope.

(** [std::cout << s] *)
Definition cout (s : string) : M unit :=
  fun out => Some (tt, (out ++ [s])%list).

(** The newline character. *)
Definition nl : string := String (ascii_of_nat 10) EmptyString.

(** [std::cout << std::endl] *)
Definition endl : M unit := cout nl.

(** [p->...]: access through a [unique_ptr]; a null pointer faults. *)
Definition deref {T : Type} (p : unique_ptr T) : M T :=
  match p with
  | Some v => ret v
  | None => fault
  end.

(** The value a computation returns, and what it appends to the stream. *)
Definition value_of {A : Type} (r : option (A * ostream)) : option A :=
  match r with
  | Some (a, _) => Some a
  | None => None
  end.

Definition stream_of {A : Type} (r : option (A * ostream)) : option ostream :=
  match r with
  | Some (_, out) => Some out
  | None => None
  end.

(** ** The program *)

(** [void ResourceHandle::Print()] *)
Definition Print (this : ResourceHandle) : M unit :=
  cout "Resource Handle: '" ;;
  cout (name this) ;;
  cout "' (Type: " ;;
  cout (if (type this =? kSafe)%Z then "Safe" else "Privileged") ;;
  cout ")" ;;
  endl.

(** [std::unique_ptr<ResourceHandle> GetResource(ResourceType requested_type,
                                                  ResourceType fallback_type)] *)
Definition GetResource (requested_type fallback_type : ResourceType)
  : M (unique_ptr ResourceHandle) :=
  cout "[Browser Process] Received request for resource." ;; endl ;;
  let is_resource_available := (requested_type =? kSafe)%Z in
  if is_resource_available then
    cout "[Browser Process] Requested resource is available. Granting." ;; endl ;;
    ret (make_unique (Build_ResourceHandle requested_type "safe_resource.tmp"))
  else
    cout "[Browser Process] WARNING: Requested resource not available. Granting fallback." ;; endl ;;
    ret (make_unique (Build_ResourceHandle fallback_type "privileged_browser_process_handle")).

(** The line printed on the branch [handle->type == ResourceType::kPrivileged]. *)
Definition escape_message : string :=
  "[Renderer Process] SUCCESS. Sandbox escape achieved. We now have a privileged handle.".

(** The first operand streamed by the driver. *)
Definition attacker_banner : string :=
  (nl ++ "[Renderer Process] Attacker has control.")%string.

(** [void SimulateCompromisedRenderer()] *)
Definition SimulateCompromisedRenderer : M unit :=
  cout attacker_banner ;; endl ;;
  cout "[Renderer Process] Crafting malicious IPC message..." ;; endl ;;
  let malicious_request := ResourceType_of_int 99 in
  let malicious_fallback := kPrivileged in
  cout "[Renderer Process] Sending IPC to browser: request invalid type, but set fallback to Privileged." ;; endl ;;
  handle <- GetResource malicious_request malicious_fallback ;;
  cout "[Renderer Process] Received handle from browser!" ;; endl ;;
  h <- deref handle ;;
  Print h ;;
  h' <- deref handle ;;
  if (type h' =? kPrivileged)%Z then
    cout escape_message ;; endl
  else
    ret tt.

(** [int main()] *)
Definition main : M Z :=
  SimulateCompromisedRenderer ;;
  ret 0.

(** What each branch of [GetResource] streams. *)
Definition granted_trace : list string :=
  [ "[Browser Process] Received request for resource."; nl;
    "[Browser Process] Requested resource is available. Granting."; nl ].

Definition fallback_trace : list string :=
  [ "[Browser Process] Received request for resource."; nl;
    "[Browser Process] WARNING: Requested resource not available. Granting fallback."; nl ].

(** What [Print] streams for the handle of the fallback branch when its type
    is [kPrivileged]. *)
Definition printed_privileged_handle : list string :=
  [ "Resource Handle: '"; "privileged_browser_process_handle"; "' (Type: ";
    "Privileged"; ")"; nl ].

(** What one run of [SimulateCompromisedRenderer] streams: everything up to
    the test of the handle's type, then the line of the branch taken. *)
Definition driver_prefix : list string :=
  ([ attacker_banner; nl;
     "[Renderer Process] Crafting malicious IPC message..."; nl;
     "[Renderer Process] Sending IPC to browser: request invalid type, but set fallback to Privileged."; nl ]
   ++ fallback_trace
   ++ [ "[Renderer Process] Received handle from browser!"; nl ]
   ++ printed_privileged_handle)%list.

Definition driver_trace : list string :=
  (driver_prefix ++ [ escape_message; nl ])%list.

(** ** The corrected mode *)

(** [Result<Handle, PermissionDenied>], the result of the corrected mode. *)
Inductive Result (T E : Type) : Type :=
| Ok (v : T)
| Err (e : E).

Arguments Ok {T E} v.
Arguments Err {T E} e.

Inductive DecideError : Type :=
| PermissionDenied.

(** Modelled from the spec: the availability check of section 4.1, "a
    request is available iff requested == Safe"; the source has it only as
    the local [is_resource_available] of [GetResource], applied to the
    request. *)
Definition is_available (kind : ResourceType) : bool :=
  (kind =? kSafe)%Z.

(** Modelled from the spec: the corrected mode of Decide, which the source
    does not contain (its only handler is [GetResource], the flawed mode).
    Section 4.1: an available request is granted a handle of the requested
    kind; on the unavailable branch the fallback kind must pass the same
    availability check before being granted, and if it fails the call fails
    with [PermissionDenied]. The spec leaves the name of the handle open, so
    the naming is an argument; the diagnostic output, which the spec keeps
    out of the contract, is left out. *)
Definition DecideCorrected (handle_name : ResourceType -> string)
  (requested fallback : ResourceType) : Result ResourceHandle DecideError :=
  if is_available requested then
    Ok (Build_ResourceHandle requested (handle_name requested))
  else if is_available fallback then
    Ok (Build_ResourceHandle fallback (handle_name fallback))
  else
    Err PermissionDenied.

(** ** Sanity checks on concrete inputs *)

Example cast_99 : ResourceType_of_int 99 = 99.
Proof. reflexivity. Qed.

Example cast_99_representable : representable (ResourceType_of_int 99).
Proof. unfold representable, int_min, int_max. rewrite cast_99. lia. Qed.

Lemma ResourceType_of_int_representable (n : Z) :
  representable (ResourceType_of_int n).
Proof.
  unfold representable, ResourceType_of_int, int_min, int_max.
  pose proof (Z.mod_pos_bound (n + 2 ^ 31) (2 ^ 32) ltac:(lia)). lia.
Qed.

Lemma ResourceType_of_int_id (n : Z) :
  representable n -> ResourceType_of_int n = n.
Proof.
  unfold representable, ResourceType_of_int, int_min, int_max. intros H.
  rewrite Z.mod_small by lia. lia.
Qed.

Example GetResource_safe_safe :
  value_of (GetResource kSafe kSafe []) =
  Some (Some (Build_ResourceHandle kSafe "safe_resource.tmp")).
Proof. reflexivity. Qed.

Example GetResource_privileged_safe :
  value_of (GetResource kPrivileged kSafe []) =
  Some (Some (Build_ResourceHandle kSafe "privileged_browser_process_handle")).
Proof. reflexivity. Qed.

Example Print_privileged :
  stream_of (Print (Build_ResourceHandle kPrivileged "h") []) =
  Some [ "Resource Handle: '"; "h"; "' (Type: "; "Privileged"; ")"; nl ].
Proof. reflexivity. Qed.

Example DecideCorrected_scenario_A (handle_name : ResourceType -> string) :
  DecideCorrected handle_name kSafe kPrivileged =
  Ok (Build_ResourceHandle kSafe (handle_name kSafe)).
Proof. reflexivity. Qed.

Example DecideCorrected_scenario_B (handle_name : ResourceType -> string) :
  DecideCorrected handle_name (ResourceType_of_int 99) kPrivileged =
  Err PermissionDenied.
Proof. reflexivity. Qed.

Example DecideCorrected_scenario_C (handle_name : ResourceType -> string) :
  DecideCorrected handle_name (ResourceType_of_int 99) kSafe =
  Ok (Build_ResourceHandle kSafe (handle_name kSafe)).
Proof. reflexivity. Qed.

(** ** How computations run *)

Lemma bind_run {A B : Type} (m : M A) (k : A -> M B) (out out' : ostream) (a : A) :
  m out = Some (a, out') -> bind m k out = k a out'.
Proof. intros E. unfold bind. rewrite E. reflexivity. Qed.

Lemma cout_run (s : string) (out : ostream) :
  cout s out = Some (tt, (out ++ [s])%list).
Proof. reflexivity. Qed.

Lemma endl_run (out : ostream) :
  endl out = Some (tt, (out ++ [nl])%list).
Proof. reflexivity. Qed.

(** One streamed line: an operand followed by [std::endl]. *)
Lemma line_run {B : Type} (s : string) (k : M B) (out : ostream) :
  (cout s ;; endl ;; k) out = k (out ++ [s; nl])%list.
Proof.
  rewrite (bind_run _ _ _ _ _ (cout_run s out)).
  rewrite (bind_run _ _ _ _ _ (endl_run _)).
  rewrite <- app_assoc. reflexivity.
Qed.

(** ** The two branches of [GetResource] *)

Section Branches.

Variables requested_type fallback_type : ResourceType.
Variable out : ostream.

Lemma GetResource_available :
  requested_type = kSafe ->
  GetResource requested_type fallback_type out =
  Some (Some (Build_ResourceHandle kSafe "safe_resource.tmp"),
        (out ++ granted_trace)%list).
Proof.
  intros ->. unfold GetResource.
  rewrite line_run. rewrite Z.eqb_refl. rewrite line_run.
  unfold ret, make_unique, granted_trace.
  rewrite <- app_assoc. reflexivity.
Qed.

Lemma GetResource_unavailable :
  requested_type <> kSafe ->
  GetResource requested_type fallback_type out =
  Some (Some (Build_ResourceHandle fallback_type "privileged_browser_process_handle"),
        (out ++ fallback_trace)%list).
Proof.
  intros Hne. unfold GetResource.
  rewrite line_run.
  destruct (Z.eqb_spec requested_type kSafe) as [Heq | _]; [contradiction | ].
  rewrite line_run.
  unfold ret, make_unique, fallback_trace.
  rewrite <- app_assoc. reflexivity.
Qed.

End Branches.

(** The handler always answers with a handle: neither a fault nor a null
    pointer, whatever the two values and the state of the stream. *)
Lemma GetResource_answers (requested_type fallback_type : ResourceType) (out : ostream) :
  exists h w,
    GetResource requested_type fallback_type out = Some (Some h, (out ++ w)%list) /\
    h = Build_ResourceHandle
          (if (requested_type =? kSafe)%Z then kSafe else fallback_type)
          (if (requested_type =? kSafe)%Z
           then "safe_resource.tmp" else "privileged_browser_process_handle").
Proof.
  destruct (Z.eqb_spec requested_type kSafe) as [Heq | Hne].
  - eexists; eexists; split; [apply GetResource_available; exact Heq | reflexivity].
  - eexists; eexists; split; [apply GetResource_unavailable; exact Hne | reflexivity].
Qed.

(** ** The flaw *)

(** C1 (flaw characterization). Whenever the fallback is [kPrivileged] and
    the requested value is anything but [kSafe] -- an enumerator or a value
    outside the enumerators -- [GetResource] answers with a handle whose type
    is [kPrivileged]; handed to the renderer, that handle breaks the boundary
    a privileged handle must respect. *)
Theorem GetResource_escalates
  (requested_type fallback_type : ResourceType) (out : ostream) :
  fallback_type = kPrivileged ->
  requested_type <> kSafe ->
  exists h out',
    GetResource requested_type fallback_type out = Some (Some h, out') /\
    type h = kPrivileged /\
    ~ respects_boundary Renderer h.
Proof.
  intros Hf Hr.
  exists (Build_ResourceHandle fallback_type "privileged_browser_process_handle").
  exists (out ++ fallback_trace)%list.
  split; [apply GetResource_unavailable; exact Hr | ].
  split; [exact Hf | ].
  unfold respects_boundary; simpl. intros Hb.
  specialize (Hb Hf). discriminate Hb.
Qed.

Lemma GetResource_escalates_witness :
  kPrivileged = kPrivileged /\
  ResourceType_of_int 99 <> kSafe /\
  exists h out',
    GetResource (ResourceType_of_int 99) kPrivileged [] = Some (Some h, out') /\
    type h = kPrivileged /\
    ~ respects_boundary Renderer h.
Proof.
  split; [reflexivity | ].
  split; [vm_compute; lia | ].
  apply (GetResource_escalates (ResourceType_of_int 99) kPrivileged []).
  - reflexivity.
  - vm_compute; lia.
Defined.

(** C2 (fallback granted unchecked). A request is available exactly when it
    equals [kSafe]; for every request that is not, and every fallback value,
    the handle [GetResource] answers with has the fallback as its type. *)
Theorem GetResource_grants_fallback
  (requested_type fallback_type : ResourceType) (out : ostream) :
  requested_type <> kSafe ->
  exists h out',
    GetResource requested_type fallback_type out = Some (Some h, out') /\
    type h = fallback_type.
Proof.
  intros Hr.
  exists (Build_ResourceHandle fallback_type "privileged_browser_process_handle").
  exists (out ++ fallback_trace)%list.
  split; [apply GetResource_unavailable; exact Hr | reflexivity].
Qed.

Lemma GetResource_grants_fallback_witness :
  ResourceType_of_int 99 <> kSafe /\
  exists h out',
    GetResource (ResourceType_of_int 99) kSafe [] = Some (Some h, out') /\
    type h = kSafe.
Proof.
  split; [vm_compute; lia | ].
  apply (GetResource_grants_fallback (ResourceType_of_int 99) kSafe []).
  vm_compute; lia.
Defined.

(** C3 (safe path unaffected). For the request [kSafe] and every fallback
    value, [kPrivileged] included, [GetResource] answers with a handle of type
    [kSafe], and the answer is the same for any two fallback values. *)
Theorem GetResource_safe_request
  (fallback_type fallback_type' : ResourceType) (out : ostream) :
  (exists h out',
     GetResource kSafe fallback_type out = Some (Some h, out') /\
     type h = kSafe) /\
  GetResource kSafe fallback_type out = GetResource kSafe fallback_type' out.
Proof.
  split.
  - exists (Build_ResourceHandle kSafe "safe_resource.tmp").
    exists (out ++ granted_trace)%list.
    split; [apply GetResource_available; reflexivity | reflexivity].
  - rewrite !GetResource_available by reflexivity. reflexivity.
Qed.



(** C6 (determinism of the type). Two calls of [GetResource] with the same
    pair of values, in whatever states of the stream, both return a handle
    and the two handles have the same type. *)
Theorem GetResource_same_type
  (requested_type fallback_type : ResourceType) (out1 out2 : ostream) :
  exists h1 h2 out1' out2',
    GetResource requested_type fallback_type out1 = Some (Some h1, out1') /\
    GetResource requested_type fallback_type out2 = Some (Some h2, out2') /\
    type h1 = type h2.
Proof.
  destruct (GetResource_answers requested_type fallback_type out1) as (h1 & w1 & E1 & D1).
  destruct (GetResource_answers requested_type fallback_type out2) as (h2 & w2 & E2 & D2).
  exists h1, h2, (out1 ++ w1)%list, (out2 ++ w2)%list.
  split; [exact E1 | ]. split; [exact E2 | ].
  rewrite D1, D2. reflexivity.
Qed.

(** C8 (names are constants of the branch). The handle [GetResource] returns
    is named "safe_resource.tmp" when the request is [kSafe] and
    "privileged_browser_process_handle" otherwise; two calls with the same
    pair of values return the same handle, type and name alike. *)
Theorem GetResource_fixed_name
  (requested_type fallback_type : ResourceType) (out1 out2 : ostream) :
  exists h out1' out2',
    GetResource requested_type fallback_type out1 = Some (Some h, out1') /\
    GetResource requested_type fallback_type out2 = Some (Some h, out2') /\
    name h = (if (requested_type =? kSafe)%Z
              then "safe_resource.tmp"
              else "privileged_browser_process_handle").
Proof.
  destruct (Z.eqb_spec requested_type kSafe) as [Heq | Hne].
  - exists (Build_ResourceHandle kSafe "safe_resource.tmp").
    exists (out1 ++ granted_trace)%list, (out2 ++ granted_trace)%list.
    repeat split; apply GetResource_available; exact Heq.
  - exists (Build_ResourceHandle fallback_type "privileged_browser_process_handle").
    exists (out1 ++ fallback_trace)%list, (out2 ++ fallback_trace)%list.
    repeat split; apply GetResource_unavailable; exact Hne.
Qed.

(** C9 (the type comes from the caller). The type of the handle
    [GetResource] returns is one of its two arguments; so the handle is
    privileged only if the caller passed [kPrivileged] as the request or as
    the fallback. *)
Theorem GetResource_type_from_arguments
  (requested_type fallback_type : ResourceType) (out : ostream) :
  exists h out',
    GetResource requested_type fallback_type out = Some (Some h, out') /\
    (type h = requested_type \/ type h = fallback_type) /\
    (type h = kPrivileged ->
     requested_type = kPrivileged \/ fallback_type = kPrivileged).
Proof.
  destruct (Z.eq_dec requested_type kSafe) as [Heq | Hne].
  - exists (Build_ResourceHandle kSafe "safe_resource.tmp").
    exists (out ++ granted_trace)%list.
    split; [apply GetResource_available; exact Heq | ].
    simpl. split.
    + left. symmetry. exact Heq.
    + intros H; discriminate H.
  - exists (Build_ResourceHandle fallback_type "privileged_browser_process_handle").
    exists (out ++ fallback_trace)%list.
    split; [apply GetResource_unavailable; exact Hne | ].
    simpl. split.
    + right. reflexivity.
    + intros H. right. exact H.
Qed.

(** ** The driver *)

Lemma Print_run (h : ResourceHandle) (out : ostream) :
  Print h out =
  Some (tt, (out ++ [ "Resource Handle: '"; name h; "' (Type: ";
                      (if (type h =? kSafe)%Z then "Safe" else "Privileged");
                      ")"; nl ])%list).
Proof.
  unfold Print, endl.
  repeat (erewrite bind_run by apply cout_run).
  rewrite cout_run. repeat rewrite <- app_assoc. reflexivity.
Qed.

(** One run of the driver, from any state of the stream. *)
Lemma SimulateCompromisedRenderer_run (out : ostream) :
  SimulateCompromisedRenderer out = Some (tt, (out ++ driver_trace)%list).
Proof.
  unfold SimulateCompromisedRenderer.
  rewrite !line_run.
  erewrite bind_run
    by (apply GetResource_unavailable; vm_compute; discriminate).
  rewrite line_run.
  unfold deref at 1. erewrite bind_run by reflexivity.
  erewrite bind_run by apply Print_run.
  unfold deref. erewrite bind_run by reflexivity.
  cbn [type name]. change ((kPrivileged =? kPrivileged)%Z) with true.
  change ((kPrivileged =? kSafe)%Z) with false. cbv iota.
  erewrite bind_run by apply cout_run.
  rewrite endl_run.
  unfold driver_trace, driver_prefix, printed_privileged_handle.
  repeat rewrite <- app_assoc. reflexivity.
Qed.

(** C10 (the exploit always succeeds). The call the driver makes,
    [GetResource] on the cast of 99 and [kPrivileged], returns a handle of
    type [kPrivileged] in every state of the stream, and every run of
    [SimulateCompromisedRenderer] ends by streaming the line of its
    sandbox-escape branch, a line streamed nowhere before that branch. *)
Theorem SimulateCompromisedRenderer_escapes (out : ostream) :
  (exists h out',
     GetResource (ResourceType_of_int 99) kPrivileged out = Some (Some h, out') /\
     type h = kPrivileged) /\
  SimulateCompromisedRenderer out =
    Some (tt, (out ++ driver_prefix ++ [ escape_message; nl ])%list) /\
  count_occ string_dec driver_prefix escape_message = 0%nat.
Proof.
  split; [ | split].
  - exists (Build_ResourceHandle kPrivileged "privileged_browser_process_handle").
    exists (out ++ fallback_trace)%list.
    split; [ | reflexivity].
    apply GetResource_unavailable. vm_compute; discriminate.
  - apply SimulateCompromisedRenderer_run.
  - vm_compute. reflexivity.
Qed.

(** C7 (the entry point). [main] runs [SimulateCompromisedRenderer] once --
    it leaves the stream as one run of the driver leaves it, with a single
    attacker banner appended -- and returns 0 from every state. *)
Theorem main_returns_zero (out : ostream) :
  exists w,
    main out = Some (0, (out ++ w)%list) /\
    SimulateCompromisedRenderer out = Some (tt, (out ++ w)%list) /\
    count_occ string_dec w attacker_banner = 1%nat.
Proof.
  exists driver_trace.
  split; [ | split].
  - unfold main.
    erewrite bind_run by apply SimulateCompromisedRenderer_run.
    reflexivity.
  - apply SimulateCompromisedRenderer_run.
  - vm_compute. reflexivity.
Qed.

(** ** What the diagnostics show and what they hide *)

(** The trace of [GetResource] tells which branch was taken and nothing
    else: the call appends four operands to the stream, the warning line is
    among them exactly when the request is not [kSafe], and the stream is the
    same for any two fallback values -- a privileged grant leaves the same
    trace as a harmless one. *)
Theorem GetResource_trace_hides_fallback
  (requested_type fallback_type fallback_type' : ResourceType) (out : ostream) :
  exists w,
    stream_of (GetResource requested_type fallback_type out) = Some (out ++ w)%list /\
    stream_of (GetResource requested_type fallback_type' out) = Some (out ++ w)%list /\
    List.length w = 4%nat /\
    (In "[Browser Process] WARNING: Requested resource not available. Granting fallback." w
     <-> requested_type <> kSafe).
Proof.
  destruct (Z.eq_dec requested_type kSafe) as [Heq | Hne].
  - exists granted_trace.
    rewrite !(GetResource_available _ _ _ Heq). simpl.
    repeat split; try reflexivity.
    + intros [H | [H | [H | [H | []]]]]; discriminate H.
    + intros H; contradiction.
  - exists fallback_trace.
    rewrite !(GetResource_unavailable _ _ _ Hne). simpl.
    repeat split; try reflexivity.
    + intros _; exact Hne.
    + intros _. right; right; left. reflexivity.
Qed.

(** ** Names and types of the handles handed out *)

(** Whatever [GetResource] returns, a handle named "safe_resource.tmp" has
    type [kSafe] and a handle of type [kPrivileged] is named
    "privileged_browser_process_handle"; that name, though, only says that
    the type is the caller's fallback. *)
Theorem GetResource_name_and_type
  (requested_type fallback_type : ResourceType) (out out' : ostream)
  (h : ResourceHandle) :
  GetResource requested_type fallback_type out = Some (Some h, out') ->
  (name h = "safe_resource.tmp" -> type h = kSafe) /\
  (type h = kPrivileged -> name h = "privileged_browser_process_handle") /\
  (name h = "privileged_browser_process_handle" -> type h = fallback_type).
Proof.
  intros E.
  destruct (Z.eq_dec requested_type kSafe) as [Heq | Hne].
  - rewrite (GetResource_available _ _ _ Heq) in E.
    injection E as <- _. simpl.
    split; [reflexivity | split]; intros H; discriminate H.
  - rewrite (GetResource_unavailable _ _ _ Hne) in E.
    injection E as <- _. simpl.
    split; [intros H; discriminate H | split]; reflexivity.
Qed.

Lemma GetResource_name_and_type_witness :
  GetResource kPrivileged kSafe [] =
    Some (Some (Build_ResourceHandle kSafe "privileged_browser_process_handle"),
          fallback_trace) /\
  (let h := Build_ResourceHandle kSafe "privileged_browser_process_handle" in
   (name h = "safe_resource.tmp" -> type h = kSafe) /\
   (type h = kPrivileged -> name h = "privileged_browser_process_handle") /\
   (name h = "privileged_browser_process_handle" -> type h = kSafe)).
Proof.
  split; [reflexivity | ].
  apply (GetResource_name_and_type kPrivileged kSafe [] fallback_trace).
  reflexivity.
Defined.

(** [kSafe] is the only request honoured for itself: the handle has the
    requested type for every fallback exactly when the request is [kSafe]. *)
Theorem kSafe_only_request_honoured (requested_type : ResourceType) :
  (forall (fallback_type : ResourceType) (out : ostream),
     exists h out',
       GetResource requested_type fallback_type out = Some (Some h, out') /\
       type h = requested_type)
  <-> requested_type = kSafe.
Proof.
  split.
  - intros H.
    destruct (Z.eq_dec requested_type kSafe) as [Heq | Hne]; [exact Heq | ].
    destruct (H kSafe []) as (h & out' & E & T).
    rewrite (GetResource_unavailable _ _ _ Hne) in E.
    injection E as <- _. simpl in T. symmetry. exact T.
  - intros -> fallback_type out.
    exists (Build_ResourceHandle kSafe "safe_resource.tmp").
    exists (out ++ granted_trace)%list.
    split; [apply GetResource_available; reflexivity | reflexivity].
Qed.

(** ** Granting and printing *)

(** Granting and then printing, as the driver does: the pointer returned by
    [GetResource] is dereferenced without fault, and the report says
    "Privileged" exactly when neither the request nor the fallback is
    [kSafe] -- under the name "safe_resource.tmp" exactly when the request is
    [kSafe]. *)
Theorem GetResource_then_Print
  (requested_type fallback_type : ResourceType) (out : ostream) :
  exists w nm label,
    (handle <- GetResource requested_type fallback_type ;;
     h <- deref handle ;;
     Print h) out =
      Some (tt, (out ++ w ++
                 [ "Resource Handle: '"; nm; "' (Type: "; label; ")"; nl ])%list) /\
    (nm = "safe_resource.tmp" <-> requested_type = kSafe) /\
    (label = "Safe" <-> requested_type = kSafe \/ fallback_type = kSafe) /\
    (label = "Privileged" <-> requested_type <> kSafe /\ fallback_type <> kSafe).
Proof.
  destruct (Z.eq_dec requested_type kSafe) as [Heq | Hne].
  - exists granted_trace, "safe_resource.tmp", "Safe".
    split; [ | split; [ | split]].
    + erewrite bind_run by (apply GetResource_available; exact Heq).
      unfold deref. erewrite bind_run by reflexivity.
      rewrite Print_run. simpl type. simpl name.
      change ((kSafe =? kSafe)%Z) with true. cbv iota.
      rewrite <- app_assoc. reflexivity.
    + split; intros _; [exact Heq | reflexivity].
    + split; intros _; [left; exact Heq | reflexivity].
    + split; [intros H; discriminate H | intros [H _]; contradiction].
  - destruct (Z.eqb_spec fallback_type kSafe) as [Hf | Hf].
    + exists fallback_trace, "privileged_browser_process_handle", "Safe".
      split; [ | split; [ | split]].
      * erewrite bind_run by (apply GetResource_unavailable; exact Hne).
        unfold deref. erewrite bind_run by reflexivity.
        rewrite Print_run. simpl type. simpl name.
        rewrite Hf. change ((kSafe =? kSafe)%Z) with true. cbv iota.
        rewrite <- app_assoc. reflexivity.
      * split; [intros H; discriminate H | intros H; contradiction].
      * split; intros _; [right; exact Hf | reflexivity].
      * split; [intros H; discriminate H | intros [_ H]; contradiction].
    + exists fallback_trace, "privileged_browser_process_handle", "Privileged".
      split; [ | split; [ | split]].
      * erewrite bind_run by (apply GetResource_unavailable; exact Hne).
        unfold deref. erewrite bind_run by reflexivity.
        rewrite Print_run. simpl type. simpl name.
        destruct (Z.eqb_spec fallback_type kSafe) as [H | _]; [contradiction | ].
        rewrite <- app_assoc. reflexivity.
      * split; [intros H; discriminate H | intros H; contradiction].
      * split; [intros H; discriminate H | intros [H | H]; contradiction].
      * split; intros _; [split; assumption | reflexivity].
Qed.
